(** * getCollectionGqlType: the GraphQL object type of a collection

    A shallow embedding of
    [src/graphql/schema/collection/getCollectionGqlType.ts].

    JavaScript objects that the module compares with [===] (collections,
    build tokens, the object types it allocates) carry an address; [===]
    on them compares addresses.  The memo table of [memoize2] and the
    object types allocated with [new] live in an explicit [State]. The
    lazy [fields] thunk is a computation in the [Build] monad, which can
    throw and can call back into [getCollectionGqlType]. *)

From stdpp Require Import base option list strings gmap.
From Stdlib Require Import ZArith.

Open Scope string_scope.
Open Scope list_scope.
Set Warnings "-register-all".

(** ** JavaScript values and exceptions *)

Definition Ref := nat.

(** The values the generated predicates and resolvers receive ([mixed]).
    [VMap] is an ES [Map] object: its own property [$$nodeValueCollection]
    ([VUndefined] when it was never set) and its entries in insertion
    order. [VCollection] is a reference to a [Collection] object. *)
Inductive Value : Type :=
| VUndefined
| VNull
| VBool (b : bool)
| VNumber (n : Z)
| VString (s : string)
| VCollection (r : Ref)
| VMap (nodeValueCollection : Value) (entries : list (string * Value)).

Inductive Exn : Type :=
| TypeError (message : string)
| CollaboratorError (message : string).

Inductive Result (A : Type) : Type :=
| Ok (a : A)
| Err (e : Exn).
Arguments Ok {A} a.
Arguments Err {A} e.

(** [value != null] *)
Definition neq_null (value : Value) : bool :=
  match value with
  | VUndefined | VNull => false
  | _ => true
  end.

(** [typeof x !== 'undefined'] *)
Definition typeof_neq_undefined (x : Value) : bool :=
  match x with
  | VUndefined => false
  | _ => true
  end.

(** [x === collection] for an object whose address is [r]: only a
    reference to the same object is strictly equal to it. *)
Definition strict_eq_object (x : Value) (r : Ref) : bool :=
  match x with
  | VCollection r' => Nat.eqb r' r
  | _ => false
  end.

(** [map.get(key)] on the entries of an ES [Map]. *)
Fixpoint Map_get (entries : list (string * Value)) (key : string) : Value :=
  match entries with
  | [] => VUndefined
  | (k, v) :: rest => if String.eqb k key then v else Map_get rest key
  end.

(** [value.get(key)]: only a [Map] has the method. *)
Definition value_get (value : Value) (key : string) : Result Value :=
  match value with
  | VMap _ entries => Ok (Map_get entries key)
  | VUndefined | VNull => Err (TypeError "Cannot read properties of null or undefined")
  | _ => Err (TypeError "value.get is not a function")
  end.

(** ** Evaluation with a log of property reads

    [isTypeOf] reads the property [$$nodeValueCollection] of its argument.
    The read throws on [null] and [undefined]; the log records every read
    that was attempted. *)

Inductive Event : Type :=
| ReadNodeValueCollection (target : Value).

Definition Eval (A : Type) : Type := list Event * Result A.

Definition eval_ret {A} (a : A) : Eval A := ([], Ok a).

Definition eval_bind {A B} (m : Eval A) (f : A -> Eval B) : Eval B :=
  match m with
  | (log, Ok a) => let '(log', r) := f a in (log ++ log', r)
  | (log, Err e) => (log, Err e)
  end.

(** [value[$$nodeValueCollection]] *)
Definition read_nodeValueCollection (value : Value) : Eval Value :=
  ([ReadNodeValueCollection value],
   match value with
   | VUndefined | VNull => Err (TypeError "Cannot read properties of null or undefined")
   | VMap tag _ => Ok tag
   | _ => Ok VUndefined
   end).

(** ** The data-model interface ([../../../interface])

    The records list the members that the module reads. *)

(** A [Type] of the interface: only handed on to [getGqlType]. *)
Inductive SemanticType : Type :=
| SemanticTypeRef (address : Ref).

(** Modelled from the spec: [Condition] and [conditionHelpers] of the
    interface package are missing.  The spec calls a condition "an opaque
    filter predicate value composable via logical AND", with "true" as
    the neutral condition. *)
Definition Condition : Type := Value -> bool.

Module conditionHelpers.
(** Modelled from the spec: [conditionHelpers.and], the logical AND of
    two filter predicates. *)
Definition and (a b : Condition) : Condition := fun row => a row && b row.

(** Modelled from the spec: the neutral (always true) condition. *)
Definition neutral : Condition := fun _ => true.
End conditionHelpers.

Inductive Paginator : Type :=
| PaginatorRef (address : Ref).

Module ObjectType.
Record Field : Type := {
    description : option string;
    type : SemanticType;
  }.

Record t : Type := {
    name : string;
    fields : list (string * Field);   (* [Map<string, Field>], insertion order *)
    isTypeOf : Value -> bool;          (* the entity's own shape check *)
  }.
End ObjectType.

(** A collection key; [collection] is the address of the collection the
    key belongs to. *)
Module CollectionKey.
Record t : Type := {
  collection : Ref;
  name : string;
}.
End CollectionKey.

Module Collection.
Record t : Type := {
    address : Ref;
    name : string;
    description : option string;
    type : ObjectType.t;
    primaryKey : option CollectionKey.t;
    paginator : option Paginator;
  }.
End Collection.

Module Relation.
Record t : Type := {
    name : string;
    headCollectionKey : CollectionKey.t;
    tailCollection : Collection.t;
    getTailConditionFromHeadValue : option (Value -> Condition);
  }.
End Relation.

(** A function stored in the hooks of a build token, by reference. *)
Inductive HookRef : Type :=
| HookFn (address : Ref).

Module BuildToken.
Record Options : Type := { nodeIdFieldName : string }.
Record Inventory : Type := { getRelations : list Relation.t }.
Record Hooks : Type := { objectTypeFieldEntries : option HookRef }.

Record t : Type := {
    address : Ref;
    options : Options;
    inventory : Inventory;
    _hooks : Hooks;
  }.
End BuildToken.

(** ** The GraphQL side *)

Inductive GraphQLType : Type :=
| GraphQLID
| GraphQLNonNull (ofType : GraphQLType)
| GraphQLList (ofType : GraphQLType)
| GraphQLNamed (name : string)          (* a type built by a collaborator *)
| GraphQLObject (address : Ref).        (* an object type allocated here *)

Inductive GraphQLInterfaceType : Type :=
| InterfaceRef (address : Ref).

Definition Args : Type := list (string * Value).

(** [args.condition] and the like: [undefined] when the key is absent. *)
Definition args_get (args : Args) (key : string) : Value := Map_get args key.

Record GraphQLArgumentConfig : Type := {
  arg_description : option string;
  arg_type : GraphQLType;
}.

Record GraphQLFieldConfig : Type := {
  field_description : option string;
  field_type : GraphQLType;
  field_args : list (string * GraphQLArgumentConfig);
  field_resolve : Value -> Args -> Result Value;
}.

Definition FieldEntry : Type := string * GraphQLFieldConfig.

(** The config object handed to [createConnectionGqlField]. *)
Record ConnectionConfig : Type := {
  inputArgEntries : list (string * GraphQLArgumentConfig);
  getPaginatorInput : Value -> Args -> Condition;
}.

(** What [getConditionGqlType] returns. *)
Record ConditionGqlType : Type := {
  gqlType : GraphQLType;
  fromGqlInput : Value -> Condition;
}.

(** ** The [Build] monad

    Code that runs while a type's fields are resolved either returns,
    throws, or asks [getCollectionGqlType] for the type of a collection
    and goes on with the reference it gets back. *)

Inductive Build (A : Type) : Type :=
| Return (a : A)
| Throw (e : Exn)
| CallGetCollectionGqlType
    (buildToken : BuildToken.t) (collection : Collection.t) (k : Ref -> Build A).
Arguments Return {A} a.
Arguments Throw {A} e.
Arguments CallGetCollectionGqlType {A} buildToken collection k.

Fixpoint bind {A B} (m : Build A) (f : A -> Build B) : Build B :=
  match m with
  | Return a => f a
  | Throw e => Throw e
  | CallGetCollectionGqlType bt c k =>
      CallGetCollectionGqlType bt c (fun r => bind (k r) f)
  end.

Declare Scope build_scope.
Delimit Scope build_scope with build.
Notation "x <- m ;; k" := (bind m (fun x => k))
  (at level 100, m at next level, right associativity) : build_scope.
Open Scope build_scope.

(** [array.map(f)] with an effectful callback, left to right. *)
Fixpoint mapM {A B} (f : A -> Build B) (l : list A) : Build (list B) :=
  match l with
  | [] => Return []
  | a :: rest => b <- f a ;; bs <- mapM f rest ;; Return (b :: bs)
  end.

(** A [GraphQLObjectType]: the config object given to its constructor. *)
Record GraphQLObjectType : Type := {
  name : string;
  description : option string;
  isTypeOf : Value -> Eval bool;
  interfaces : list GraphQLInterfaceType;
  fields : Build (list FieldEntry);     (* the thunk *)
}.

(** ** State: allocated object types and the memo table *)

Record State : Type := {
  heap : list GraphQLObjectType;        (* address = index *)
  cache : gmap (Ref * Ref) Ref;         (* (build token, collection) ↦ type *)
}.

Definition empty_state : State := {| heap := []; cache := ∅ |}.

(** [new GraphQLObjectType(config)] *)
Definition new_GraphQLObjectType (config : GraphQLObjectType) (s : State)
  : Ref * State :=
  (length (heap s), {| heap := heap s ++ [config]; cache := cache s |}).

Definition memo_key (buildToken : BuildToken.t) (collection : Collection.t)
  : Ref * Ref :=
  (BuildToken.address buildToken, Collection.address collection).

(** Modelled from the spec: [memoize2] of [../../utils] is missing. The
    spec describes "a get-or-create memo table keyed by entity identity":
    the first call for a pair of arguments runs the function and stores
    its result, every later call returns the stored reference. *)
Definition memoize2
    (fn : BuildToken.t -> Collection.t -> State -> Ref * State)
    (a : BuildToken.t) (b : Collection.t) (s : State) : Ref * State :=
  match cache s !! memo_key a b with
  | Some r => (r, s)
  | None =>
      let '(r, s1) := fn a b s in
      (r, {| heap := heap s1; cache := <[memo_key a b := r]> (cache s1) |})
  end.

(** Modelled from the spec: [buildObject] of [../../utils] is missing. The
    spec has the field list "concatenating, in this fixed order" the
    entry lists it is given; an absent entry ([null], [undefined],
    [false]) contributes nothing. *)
Definition buildObject (entriess : list (list (option FieldEntry)))
  : list FieldEntry :=
  concat (map (omap id) entriess).

(** ** Collaborators

    The modules that [getCollectionGqlType.ts] imports. Those that build
    GraphQL types run in [Build]: they can throw, and they can ask for the
    type of another collection. *)

Class Collaborators : Type := {
  (** [formatName.type], [formatName.field] *)
  formatName_type : string -> string;
  formatName_field : string -> string;
  (** [idSerde.serialize] *)
  idSerde_serialize : Collection.t -> Value -> Result string;
  getNodeInterfaceType : BuildToken.t -> GraphQLInterfaceType;
  getGqlType : BuildToken.t -> SemanticType -> bool -> Build GraphQLType;
  createConnectionGqlField :
    BuildToken.t -> Paginator -> ConnectionConfig -> Build GraphQLFieldConfig;
  createCollectionRelationTailGqlFieldEntries :
    BuildToken.t -> Collection.t -> Build (list (option FieldEntry));
  (** calling the function a [HookRef] points to *)
  call_objectTypeFieldEntries :
    HookRef -> ObjectType.t -> BuildToken.t -> Build (list (option FieldEntry));
  (** the input type [getConditionGqlType] builds for an entity type, and
      its reading of a condition object that was supplied *)
  conditionInputType : BuildToken.t -> ObjectType.t -> GraphQLType;
  conditionFromInputObject : BuildToken.t -> ObjectType.t -> Value -> Condition;
}.

Section Builder.
Context {E : Collaborators}.

(** Modelled from the spec: [getConditionGqlType] is missing. The spec has
    it return the filter-condition input type of an entity type and a
    parser from the raw argument to a condition, with "absent argument ⇒
    neutral/empty condition". *)
Definition getConditionGqlType (buildToken : BuildToken.t) (type : ObjectType.t)
  : ConditionGqlType :=
  {| gqlType := conditionInputType buildToken type;
     fromGqlInput := fun condition =>
       match condition with
       | VUndefined => conditionHelpers.neutral
       | _ => conditionFromInputObject buildToken type condition
       end |}.

(** The [isTypeOf] of the built type (lines 43-47). [&&] and [?:] evaluate
    their right operands only when needed. *)
Definition collection_isTypeOf (collection : Collection.t) (value : Value)
  : Eval bool :=
  eval_bind
    (* value != null && typeof value[$$nodeValueCollection] !== 'undefined' *)
    (if neq_null value
     then eval_bind (read_nodeValueCollection value)
            (fun tag => eval_ret (typeof_neq_undefined tag))
     else eval_ret false)
    (fun tagged =>
  eval_bind
    (* ? value[$$nodeValueCollection] === collection : true *)
    (if tagged : bool
     then eval_bind (read_nodeValueCollection value)
            (fun tag => eval_ret (strict_eq_object tag (Collection.address collection)))
     else eval_ret true)
    (fun sameCollection =>
    (* (...) && type.isTypeOf(value) *)
    if sameCollection : bool
    then eval_ret (ObjectType.isTypeOf (Collection.type collection) value)
    else eval_ret false)).

(** The first argument of [buildObject] (lines 57-63): the id field. *)
Definition idFieldEntries (buildToken : BuildToken.t) (collection : Collection.t)
  : list (option FieldEntry) :=
  [ match Collection.primaryKey collection with
    | Some _ =>
        Some (BuildToken.nodeIdFieldName (BuildToken.options buildToken),
              {| field_description := Some "A globally unique identifier. Can be used in various places throughout the system to identify this single value.";
                 field_type := GraphQLNonNull GraphQLID;
                 field_args := [];
                 field_resolve := fun value _ =>
                   match idSerde_serialize collection value with
                   | Ok id => Ok (VString id)
                   | Err e => Err e
                   end |})
    | None => None
    end ].

(** One basic field (the callback of [map], lines 67-78). *)
Definition basicFieldEntry (buildToken : BuildToken.t)
    (entry : string * ObjectType.Field) : Build (option FieldEntry) :=
  let '(fieldName, field) := entry in
  type <- getGqlType buildToken (ObjectType.type field) false ;;
  Return (Some (formatName_field fieldName,
                {| field_description := ObjectType.description field;
                   field_type := type;
                   field_args := [];
                   field_resolve := fun value _ => value_get value fieldName |})).

(** The second argument (lines 66-79). *)
Definition basicFieldEntries (buildToken : BuildToken.t) (collection : Collection.t)
  : Build (list (option FieldEntry)) :=
  mapM (basicFieldEntry buildToken)
       (ObjectType.fields (Collection.type collection)).

(** The third argument (lines 82-84): fields from the hook, when there is one. *)
Definition hookFieldEntries (buildToken : BuildToken.t) (collection : Collection.t)
  : Build (list (option FieldEntry)) :=
  match BuildToken.objectTypeFieldEntries (BuildToken._hooks buildToken) with
  | Some hook =>
      call_objectTypeFieldEntries hook (Collection.type collection) buildToken
  | None => Return []
  end.

(** [relation.headCollectionKey.collection === collection] *)
Definition isHeadOf (collection : Collection.t) (relation : Relation.t) : bool :=
  Nat.eqb (CollectionKey.collection (Relation.headCollectionKey relation))
          (Collection.address collection).

(** The config given to [createConnectionGqlField] for a head relation
    (lines 105-123). *)
Definition headConnectionConfig (buildToken : BuildToken.t)
    (tailCollection : Collection.t)
    (getTailConditionFromHeadValue : Value -> Condition) : ConnectionConfig :=
  let conditionGqlType :=
    getConditionGqlType buildToken (Collection.type tailCollection) in
  {| inputArgEntries :=
       [("condition",
         {| arg_description := Some "A condition to be used in determining which values should be returned by the collection.";
            arg_type := gqlType conditionGqlType |})];
     getPaginatorInput := fun headValue args =>
       conditionHelpers.and
         (getTailConditionFromHeadValue headValue)
         (fromGqlInput conditionGqlType (args_get args "condition")) |}.

(** One head relation (the callback of [map], lines 95-125); [None] is
    the [null] of the source. *)
Definition headRelationFieldEntry (buildToken : BuildToken.t)
    (relation : Relation.t) : Build (option FieldEntry) :=
  let tailCollection := Relation.tailCollection relation in
  let tailPaginator := Collection.paginator tailCollection in
  match tailPaginator, Relation.getTailConditionFromHeadValue relation with
  | Some tailPaginator, Some getTailConditionFromHeadValue =>
      field <- createConnectionGqlField buildToken tailPaginator
                 (headConnectionConfig buildToken tailCollection
                    getTailConditionFromHeadValue) ;;
      Return (Some (formatName_field
                      (Collection.name tailCollection +:+ "-by-" +:+
                       Relation.name relation),
                    field))
  | _, _ => Return None
  end.

(** [relations.filter(...).map(...)] of lines 90-125 over a given list of
    relations. *)
Definition headRelationFieldEntriesOf (buildToken : BuildToken.t)
    (collection : Collection.t) (relations : list Relation.t)
  : Build (list (option FieldEntry)) :=
  mapM (headRelationFieldEntry buildToken)
       (List.filter (isHeadOf collection) relations).

(** The fifth argument (lines 90-125), over [inventory.getRelations()]. *)
Definition headRelationFieldEntries (buildToken : BuildToken.t)
    (collection : Collection.t) : Build (list (option FieldEntry)) :=
  headRelationFieldEntriesOf buildToken collection
    (BuildToken.getRelations (BuildToken.inventory buildToken)).

(** The body of the [fields] thunk (lines 54-126). The arguments of
    [buildObject] are evaluated left to right. *)
Definition collectionFields (buildToken : BuildToken.t)
    (collection : Collection.t) : Build (list FieldEntry) :=
  let idEntries := idFieldEntries buildToken collection in
  basicEntries <- basicFieldEntries buildToken collection ;;
  hookEntries <- hookFieldEntries buildToken collection ;;
  tailEntries <- createCollectionRelationTailGqlFieldEntries buildToken collection ;;
  headEntries <- headRelationFieldEntries buildToken collection ;;
  Return (buildObject
            [idEntries; basicEntries; hookEntries; tailEntries; headEntries]).

(** The config object of the built type (lines 36-127). *)
Definition collectionGqlTypeConfig (buildToken : BuildToken.t)
    (collection : Collection.t) : GraphQLObjectType :=
  {| name := formatName_type (ObjectType.name (Collection.type collection));
     description := Collection.description collection;
     isTypeOf := collection_isTypeOf collection;
     interfaces :=
       match Collection.primaryKey collection with
       | Some _ => [getNodeInterfaceType buildToken]
       | None => []
       end;
     fields := collectionFields buildToken collection |}.

(** The private non-memoized implementation (line 31). *)
Definition createCollectionGqlType (buildToken : BuildToken.t)
    (collection : Collection.t) (s : State) : Ref * State :=
  new_GraphQLObjectType (collectionGqlTypeConfig buildToken collection) s.

Definition _getCollectionGqlType := memoize2 createCollectionGqlType.

Definition getCollectionGqlType (buildToken : BuildToken.t)
    (collection : Collection.t) (s : State) : Ref * State :=
  _getCollectionGqlType buildToken collection s.

(** Running a [Build] computation: every call goes through the memoized
    getter. *)
Fixpoint run {A} (m : Build A) (s : State) : Result A * State :=
  match m with
  | Return a => (Ok a, s)
  | Throw e => (Err e, s)
  | CallGetCollectionGqlType buildToken collection k =>
      let '(r, s1) := getCollectionGqlType buildToken collection s in
      run (k r) s1
  end.

(** Forcing the [fields] thunk of the object type at address [r]. *)
Definition force_fields (r : Ref) (s : State)
  : Result (list FieldEntry) * State :=
  match heap s !! r with
  | Some type => run (fields type) s
  | None => (Err (TypeError "not an object type"), s)
  end.

(** The computation [m] in which every call [getCollectionGqlType(X, C)]
    with [memo_key X C = key] is answered with the reference [r], without
    going to the getter. *)
Fixpoint answered {A} (key : Ref * Ref) (r : Ref) (m : Build A) : Build A :=
  match m with
  | Return a => Return a
  | Throw e => Throw e
  | CallGetCollectionGqlType buildToken collection k =>
      if decide (memo_key buildToken collection = key)
      then answered key r (k r)
      else CallGetCollectionGqlType buildToken collection
             (fun r' => answered key r (k r'))
  end.

End Builder.

(** ** Vocabulary of the properties *)

Section Vocabulary.
Context {E : Collaborators}.

(** The relation has what a head-side connection field needs: a tail
    paginator and a way to derive a condition from a head value. *)
Definition hasConnectionField (relation : Relation.t) : bool :=
  match Collection.paginator (Relation.tailCollection relation),
        Relation.getTailConditionFromHeadValue relation with
  | Some _, Some _ => true
  | _, _ => false
  end.

(** The name of the connection field of a head relation. *)
Definition headFieldName (relation : Relation.t) : string :=
  formatName_field
    (Collection.name (Relation.tailCollection relation) +:+ "-by-" +:+
     Relation.name relation).

(** The [fields] thunk without its first stream: basic, hook, tail and
    head entries. *)
Definition nonIdFields (buildToken : BuildToken.t) (collection : Collection.t)
  : Build (list FieldEntry) :=
  basicEntries <- basicFieldEntries buildToken collection ;;
  hookEntries <- hookFieldEntries buildToken collection ;;
  tailEntries <- createCollectionRelationTailGqlFieldEntries buildToken collection ;;
  headEntries <- headRelationFieldEntries buildToken collection ;;
  Return (buildObject [basicEntries; hookEntries; tailEntries; headEntries]).

(** [entry] is the declared field entry of the entity field [fieldName]:
    named by the field-naming policy, described as the entity field is,
    typed by [getGqlType] with [isInput = false], and resolving an entity
    instance to the value it stores under [fieldName]. *)
Definition declaredEntryOf (buildToken : BuildToken.t)
    (field : string * ObjectType.Field) (entry : option FieldEntry) : Prop :=
  ∃ config,
    entry = Some (formatName_field field.1, config)
    ∧ field_description config = ObjectType.description field.2
    ∧ (∃ s0 s1, run (getGqlType buildToken (ObjectType.type field.2) false) s0
                = (Ok (field_type config), s1))
    ∧ ∀ tag entries args,
        field_resolve config (VMap tag entries) args
        = Ok (Map_get entries field.1).

End Vocabulary.

(** The outcome of a run with its result, when there is one, mapped. *)
Definition outcome_map {A B} (f : A → B) (o : Result A * State)
  : Result B * State :=
  match o with
  | (Ok a, s) => (Ok (f a), s)
  | (Err e, s) => (Err e, s)
  end.

(** Every reference in the memo table is the address of an allocated
    object type. *)
Definition cache_in_heap (s : State) : Prop :=
  ∀ key r, cache s !! key = Some r → is_Some (heap s !! r).

(** The memo table and the heap agree: every entry points at the object
    type that [createCollectionGqlType] describes for arguments with the
    addresses of its key, no two entries share a reference, and there are
    as many object types as entries. *)
Definition memo_consistent {E : Collaborators} (s : State) : Prop :=
  (∀ key r, cache s !! key = Some r →
     ∃ buildToken collection,
       memo_key buildToken collection = key
       ∧ heap s !! r = Some (collectionGqlTypeConfig buildToken collection))
  ∧ (∀ key1 key2 r,
       cache s !! key1 = Some r → cache s !! key2 = Some r → key1 = key2)
  ∧ size (cache s) = length (heap s).

(** The log of an [isTypeOf] call that reads the tag of [value] [n] times. *)
Definition reads_of (value : Value) (n : nat) : list Event :=
  replicate n (ReadNodeValueCollection value).

(** The tag a value carries: the value of its [$$nodeValueCollection]
    property, [VUndefined] when it has none. *)
Definition nodeValueCollection_of (value : Value) : Value :=
  match value with
  | VMap tag _ => tag
  | _ => VUndefined
  end.

(** ** A small schema to run the definitions on

    Two collections with a primary key and a paginator, [person] and
    [post], and a collection [log] with neither. The relation [author]
    goes from [person] (head) to [post] (tail), and [reply] from [post]
    to [post]; the relation [audit], from [person] to [log], has no tail
    paginator, and [editor] cannot derive a condition. *)
Module Demo.

Definition string_t : SemanticType := SemanticTypeRef 0.
Definition int_t : SemanticType := SemanticTypeRef 1.

(** The shape check of the entity types: a [Map] that stores a value
    under each of the given field names. *)
Definition has_fields (names : list string) (value : Value) : bool :=
  match value with
  | VMap _ entries =>
      forallb (fun name => typeof_neq_undefined (Map_get entries name)) names
  | _ => false
  end.

Definition personType : ObjectType.t :=
  {| ObjectType.name := "person";
     ObjectType.fields :=
       [("id", {| ObjectType.description := None; ObjectType.type := int_t |});
        ("full_name", {| ObjectType.description := Some "The name."; ObjectType.type := string_t |})];
     ObjectType.isTypeOf := has_fields ["id"; "full_name"] |}.

Definition postType : ObjectType.t :=
  {| ObjectType.name := "post";
     ObjectType.fields :=
       [("id", {| ObjectType.description := None; ObjectType.type := int_t |});
        ("headline", {| ObjectType.description := None; ObjectType.type := string_t |});
        ("author_id", {| ObjectType.description := None; ObjectType.type := int_t |})];
     ObjectType.isTypeOf := has_fields ["id"; "headline"; "author_id"] |}.

Definition logType : ObjectType.t :=
  {| ObjectType.name := "log";
     ObjectType.fields :=
       [("line", {| ObjectType.description := None; ObjectType.type := string_t |})];
     ObjectType.isTypeOf := has_fields ["line"] |}.

Definition person : Collection.t :=
  {| Collection.address := 1;
     Collection.name := "people";
     Collection.description := Some "A person.";
     Collection.type := personType;
     Collection.primaryKey := Some {| CollectionKey.collection := 1; CollectionKey.name := "person_pkey" |};
     Collection.paginator := Some (PaginatorRef 1) |}.

Definition post : Collection.t :=
  {| Collection.address := 2;
     Collection.name := "posts";
     Collection.description := None;
     Collection.type := postType;
     Collection.primaryKey := Some {| CollectionKey.collection := 2; CollectionKey.name := "post_pkey" |};
     Collection.paginator := Some (PaginatorRef 2) |}.

Definition log : Collection.t :=
  {| Collection.address := 3;
     Collection.name := "logs";
     Collection.description := None;
     Collection.type := logType;
     Collection.primaryKey := None;
     Collection.paginator := None |}.

Definition collections : list Collection.t := [person; post; log].

Definition collection_at (r : Ref) : option Collection.t :=
  List.find (fun c => Nat.eqb (Collection.address c) r) collections.

(** [post.author_id = person.id] *)
Definition posts_of (headValue : Value) : Condition :=
  fun row =>
    match headValue, row with
    | VMap _ head, VMap _ tail =>
        match Map_get head "id", Map_get tail "author_id" with
        | VNumber a, VNumber b => Z.eqb a b
        | _, _ => false
        end
    | _, _ => false
    end.

Definition author : Relation.t :=
  {| Relation.name := "author";
     Relation.headCollectionKey := {| CollectionKey.collection := 1; CollectionKey.name := "person_pkey" |};
     Relation.tailCollection := post;
     Relation.getTailConditionFromHeadValue := Some posts_of |}.

Definition audit : Relation.t :=
  {| Relation.name := "audit";
     Relation.headCollectionKey := {| CollectionKey.collection := 1; CollectionKey.name := "person_pkey" |};
     Relation.tailCollection := log;
     Relation.getTailConditionFromHeadValue := Some (fun _ _ => true) |}.

Definition editor : Relation.t :=
  {| Relation.name := "editor";
     Relation.headCollectionKey := {| CollectionKey.collection := 1; CollectionKey.name := "person_pkey" |};
     Relation.tailCollection := post;
     Relation.getTailConditionFromHeadValue := None |}.

(** [reply.in_reply_to = post.id] *)
Definition replies_of (headValue : Value) : Condition :=
  fun row =>
    match headValue, row with
    | VMap _ head, VMap _ tail =>
        match Map_get head "id", Map_get tail "in_reply_to" with
        | VNumber a, VNumber b => Z.eqb a b
        | _, _ => false
        end
    | _, _ => false
    end.

Definition reply : Relation.t :=
  {| Relation.name := "reply";
     Relation.headCollectionKey := {| CollectionKey.collection := 2; CollectionKey.name := "post_pkey" |};
     Relation.tailCollection := post;
     Relation.getTailConditionFromHeadValue := Some replies_of |}.

Definition buildToken : BuildToken.t :=
  {| BuildToken.address := 7;
     BuildToken.options := {| BuildToken.nodeIdFieldName := "__id" |};
     BuildToken.inventory := {| BuildToken.getRelations := [audit; author; editor; reply] |};
     BuildToken._hooks := {| BuildToken.objectTypeFieldEntries := Some (HookFn 0) |} |}.

(** The collaborators of the small schema. The tail-relation and the
    connection collaborators ask for the type of the related collection,
    as the field they build refers to it. *)

Definition plainField (type : GraphQLType)
    (args : list (string * GraphQLArgumentConfig)) : GraphQLFieldConfig :=
  {| field_description := None;
     field_type := type;
     field_args := args;
     field_resolve := fun _ _ => Ok VNull |}.

Definition demo_getGqlType (_ : BuildToken.t) (type : SemanticType)
    (_ : bool) : Build GraphQLType :=
  match type with
  | SemanticTypeRef 0 => Return (GraphQLNamed "String")
  | SemanticTypeRef 1 => Return (GraphQLNamed "Int")
  | SemanticTypeRef _ => Throw (CollaboratorError "unrecognized type")
  end.

Definition demo_createConnectionGqlField (buildToken : BuildToken.t)
    (paginator : Paginator) (config : ConnectionConfig)
  : Build GraphQLFieldConfig :=
  match paginator with
  | PaginatorRef p =>
      match collection_at p with
      | Some tail =>
          CallGetCollectionGqlType buildToken tail (fun r =>
            Return (plainField (GraphQLList (GraphQLObject r))
                               (inputArgEntries config)))
      | None => Throw (CollaboratorError "unknown paginator")
      end
  end.

Definition demo_tailEntry (buildToken : BuildToken.t)
    (collection : Collection.t) (relation : Relation.t)
  : Build (option FieldEntry) :=
  if Nat.eqb (Collection.address (Relation.tailCollection relation))
             (Collection.address collection)
  then
    match collection_at
            (CollectionKey.collection (Relation.headCollectionKey relation)) with
    | Some head =>
        CallGetCollectionGqlType buildToken head (fun r =>
          Return (Some (Collection.name head +:+ "_by_" +:+ Relation.name relation,
                        plainField (GraphQLObject r) [])))
    | None => Throw (CollaboratorError "unknown head collection")
    end
  else Return None.

Definition demo_tailEntries (buildToken : BuildToken.t)
    (collection : Collection.t) : Build (list (option FieldEntry)) :=
  mapM (demo_tailEntry buildToken collection)
       (BuildToken.getRelations (BuildToken.inventory buildToken)).

Definition demo_hook (_ : HookRef) (type : ObjectType.t) (_ : BuildToken.t)
  : Build (list (option FieldEntry)) :=
  Return [Some (ObjectType.name type +:+ "_extra",
                plainField (GraphQLNamed "String") [])].

(** A condition object with one boolean entry [(k, b)] selects the rows
    whose [k] is [b]. *)
Definition demo_conditionFromInputObject (_ : BuildToken.t) (_ : ObjectType.t)
    (condition : Value) : Condition :=
  fun row =>
    match condition, row with
    | VMap _ [(k, VBool b)], VMap _ entries =>
        match Map_get entries k with
        | VBool b' => Bool.eqb b b'
        | _ => false
        end
    | _, _ => true
    end.

Definition collaborators : Collaborators :=
  {| formatName_type := fun s => "T_" +:+ s;
     formatName_field := fun s => "f_" +:+ s;
     idSerde_serialize := fun c _ => Ok (Collection.name c +:+ ":id");
     getNodeInterfaceType := fun _ => InterfaceRef 0;
     getGqlType := demo_getGqlType;
     createConnectionGqlField := demo_createConnectionGqlField;
     createCollectionRelationTailGqlFieldEntries := demo_tailEntries;
     call_objectTypeFieldEntries := demo_hook;
     conditionInputType := fun _ type => GraphQLNamed (ObjectType.name type +:+ "Condition");
     conditionFromInputObject := demo_conditionFromInputObject |}.

#[export] Existing Instance collaborators.

(** A person, a post of that person, and the same post as the [node]
    field hands it over, tagged with its collection. *)
Definition alice : Value :=
  VMap VUndefined [("id", VNumber 1); ("full_name", VString "Alice")].

Definition hello : Value :=
  VMap VUndefined [("id", VNumber 10); ("headline", VString "Hello");
                   ("author_id", VNumber 1)].

Definition hello_node : Value :=
  VMap (VCollection 2) [("id", VNumber 10); ("headline", VString "Hello");
                        ("author_id", VNumber 1)].

(** A collection with a field whose type [getGqlType] does not know. *)
Definition draft : Collection.t :=
  {| Collection.address := 4;
     Collection.name := "drafts";
     Collection.description := None;
     Collection.type :=
       {| ObjectType.name := "draft";
          ObjectType.fields :=
            [("body", {| ObjectType.description := None; ObjectType.type := string_t |});
             ("blob", {| ObjectType.description := None; ObjectType.type := SemanticTypeRef 9 |})];
          ObjectType.isTypeOf := has_fields ["body"] |};
     Collection.primaryKey := None;
     Collection.paginator := None |}.

(** What a forced field list looks like from outside: name, type and
    argument names of each field. *)
Definition signature (forced : Result (list FieldEntry) * State)
  : Result (list (string * GraphQLType * list string)) :=
  match forced.1 with
  | Ok entries =>
      Ok (map (fun entry : FieldEntry =>
                 (entry.1, field_type entry.2, (field_args entry.2).*1))
              entries)
  | Err e => Err e
  end.

(** A value tagged as a post that does not have the shape of one. *)
Definition stub_node : Value :=
  VMap (VCollection 2) [("id", VNumber 11)].

End Demo.

(** * Properties *)

(** ** The memoized getter *)

Section Memo.
Context {E : Collaborators}.

Lemma getCollectionGqlType_hit buildToken collection s r :
  cache s !! memo_key buildToken collection = Some r →
  getCollectionGqlType buildToken collection s = (r, s).
Proof.
  intros Hhit. unfold getCollectionGqlType, _getCollectionGqlType, memoize2.
  by rewrite Hhit.
Qed.

Lemma getCollectionGqlType_miss buildToken collection s :
  cache s !! memo_key buildToken collection = None →
  getCollectionGqlType buildToken collection s =
    (length (heap s),
     {| heap := heap s ++ [collectionGqlTypeConfig buildToken collection];
        cache := <[memo_key buildToken collection := length (heap s)]> (cache s) |}).
Proof.
  intros Hmiss. unfold getCollectionGqlType, _getCollectionGqlType, memoize2.
  by rewrite Hmiss.
Qed.

(** After a call the memo table holds the returned reference. *)
Lemma getCollectionGqlType_stores buildToken collection s :
  cache (getCollectionGqlType buildToken collection s).2
    !! memo_key buildToken collection
  = Some (getCollectionGqlType buildToken collection s).1.
Proof.
  destruct (cache s !! memo_key buildToken collection) as [r|] eqn:Hc.
  - by rewrite (getCollectionGqlType_hit _ _ _ _ Hc).
  - rewrite (getCollectionGqlType_miss _ _ _ Hc). simpl.
    apply lookup_insert_eq.
Qed.

(** A call never changes an entry of the memo table. *)
Lemma getCollectionGqlType_keeps buildToken collection s key r :
  cache s !! key = Some r →
  cache (getCollectionGqlType buildToken collection s).2 !! key = Some r.
Proof.
  intros Hkey.
  destruct (cache s !! memo_key buildToken collection) as [r'|] eqn:Hc.
  - by rewrite (getCollectionGqlType_hit _ _ _ _ Hc).
  - rewrite (getCollectionGqlType_miss _ _ _ Hc). simpl.
    rewrite lookup_insert_ne; [done | congruence].
Qed.

Lemma run_call {A} buildToken collection (k : Ref → Build A) s :
  run (CallGetCollectionGqlType buildToken collection k) s =
  run (k (getCollectionGqlType buildToken collection s).1)
      (getCollectionGqlType buildToken collection s).2.
Proof. simpl. by destruct (getCollectionGqlType buildToken collection s). Qed.

(** Nor does any computation in [Build]. *)
Lemma run_keeps {A} (m : Build A) s key r :
  cache s !! key = Some r → cache (run m s).2 !! key = Some r.
Proof.
  revert s. induction m as [a | e | buildToken collection k IH]; intros s Hkey.
  - done.
  - done.
  - rewrite run_call. apply IH. by apply getCollectionGqlType_keeps.
Qed.

(** Once the table holds [r] for a key, every call for that key that a
    computation makes, at whatever depth, is answered with [r]. *)
Lemma run_answered {A} (m : Build A) s key r :
  cache s !! key = Some r → run m s = run (answered key r m) s.
Proof.
  revert s. induction m as [a | e | buildToken collection k IH]; intros s Hkey.
  - done.
  - done.
  - simpl answered. case_decide as Hk.
    + rewrite run_call. subst key.
      rewrite (getCollectionGqlType_hit _ _ _ _ Hkey). simpl. by apply IH.
    + rewrite !run_call. apply IH. by apply getCollectionGqlType_keeps.
Qed.

(** The type allocated on a miss is the one [createCollectionGqlType]
    describes. *)
Lemma getCollectionGqlType_fresh buildToken collection s :
  cache s !! memo_key buildToken collection = None →
  heap (getCollectionGqlType buildToken collection s).2
    !! (getCollectionGqlType buildToken collection s).1
  = Some (collectionGqlTypeConfig buildToken collection).
Proof.
  intros Hmiss. rewrite (getCollectionGqlType_miss _ _ _ Hmiss). simpl.
  rewrite lookup_app_r; [| done]. by rewrite Nat.sub_diag.
Qed.

Lemma cache_in_heap_empty : cache_in_heap empty_state.
Proof. intros key r Hkey. simpl in Hkey. by rewrite lookup_empty in Hkey. Qed.

Lemma getCollectionGqlType_cache_in_heap buildToken collection s :
  cache_in_heap s →
  cache_in_heap (getCollectionGqlType buildToken collection s).2.
Proof.
  intros Hwf.
  destruct (cache s !! memo_key buildToken collection) as [r' |] eqn:Hc.
  - by rewrite (getCollectionGqlType_hit _ _ _ _ Hc).
  - rewrite (getCollectionGqlType_miss _ _ _ Hc). intros key r. simpl.
    rewrite lookup_insert. case_decide as Hk.
    + intros [= <-]. apply lookup_lt_is_Some. rewrite length_app. simpl. lia.
    + intros Hkey. apply lookup_lt_is_Some. rewrite length_app.
      apply Hwf, lookup_lt_is_Some in Hkey. lia.
Qed.

Lemma run_cache_in_heap {A} (m : Build A) s :
  cache_in_heap s → cache_in_heap (run m s).2.
Proof.
  revert s. induction m as [a | e | buildToken collection k IH]; intros s Hwf.
  - done.
  - done.
  - rewrite run_call. by apply IH, getCollectionGqlType_cache_in_heap.
Qed.

(** C1. For every build token X, collection C and state, the reference r
    that [getCollectionGqlType(X, C)] returns is returned again by a second
    call, which leaves the state as it is. In any computation run
    afterwards each reentrant call [getCollectionGqlType(X, C)] gets r, as
    does a call made once that computation is over; this holds for the
    [fields] thunk of the type at r, which is there to be forced whenever
    the memo table points into the heap (as it does from the empty state
    on), and which is the thunk of [createCollectionGqlType] when the
    first call was a miss. *)
Theorem getCollectionGqlType_identical buildToken collection s :
  let r := (getCollectionGqlType buildToken collection s).1 in
  let s1 := (getCollectionGqlType buildToken collection s).2 in
  getCollectionGqlType buildToken collection s1 = (r, s1)
  ∧ (∀ A (m : Build A),
       run m s1 = run (answered (memo_key buildToken collection) r m) s1
       ∧ getCollectionGqlType buildToken collection (run m s1).2
         = (r, (run m s1).2))
  ∧ (∀ type, heap s1 !! r = Some type →
       force_fields r s1
       = run (answered (memo_key buildToken collection) r (fields type)) s1
       ∧ getCollectionGqlType buildToken collection (force_fields r s1).2
         = (r, (force_fields r s1).2))
  ∧ (cache_in_heap s → is_Some (heap s1 !! r))
  ∧ (cache s !! memo_key buildToken collection = None →
     heap s1 !! r = Some (collectionGqlTypeConfig buildToken collection)).
Proof.
  intros r s1.
  assert (Hstored : cache s1 !! memo_key buildToken collection = Some r)
    by apply getCollectionGqlType_stores.
  split; [| split; [| split; [| split]]].
  - by apply getCollectionGqlType_hit.
  - intros A m. split.
    + by apply run_answered.
    + apply getCollectionGqlType_hit. by apply run_keeps.
  - intros type Htype. unfold force_fields. rewrite Htype. split.
    + by apply run_answered.
    + apply getCollectionGqlType_hit. by apply run_keeps.
  - intros Hwf.
    by apply (getCollectionGqlType_cache_in_heap buildToken collection s Hwf
                (memo_key buildToken collection) r).
  - apply getCollectionGqlType_fresh.
Qed.

End Memo.

(** ** The type shell: identity check and interfaces *)

Section Shell.
Context {E : Collaborators}.

(** The predicate on a value that is not [null] or [undefined], by the
    tag the value carries. *)
Lemma collection_isTypeOf_by_tag collection value :
  neq_null value = true →
  (collection_isTypeOf collection value).2 =
  Ok (match nodeValueCollection_of value with
      | VUndefined => ObjectType.isTypeOf (Collection.type collection) value
      | tag =>
          strict_eq_object tag (Collection.address collection)
          && ObjectType.isTypeOf (Collection.type collection) value
      end).
Proof.
  intros Hnn. unfold collection_isTypeOf. rewrite Hnn.
  destruct value as [| | b | n | str | r | tag entries];
    try discriminate; try reflexivity.
  simpl. destruct tag as [| | b | n | str | r | tag' entries']; simpl;
    try reflexivity.
  destruct (Nat.eqb r (Collection.address collection)); reflexivity.
Qed.

(** On [null] and [undefined] the predicate goes straight to the shape
    check: the log of reads is empty. *)
Lemma collection_isTypeOf_null collection value :
  neq_null value = false →
  collection_isTypeOf collection value =
  ([], Ok (ObjectType.isTypeOf (Collection.type collection) value)).
Proof.
  intros Hnull. unfold collection_isTypeOf. rewrite Hnull. reflexivity.
Qed.

(** C7. The identity check of the built type returns false on a value
    whose tag is a collection other than the target, and on a value that
    carries no tag it returns what the entity's shape check returns. *)
Theorem isTypeOf_foreign_or_untagged buildToken collection value :
  (∀ r, nodeValueCollection_of value = VCollection r →
        r ≠ Collection.address collection →
        (isTypeOf (collectionGqlTypeConfig buildToken collection) value).2
        = Ok false)
  ∧ (nodeValueCollection_of value = VUndefined →
     (isTypeOf (collectionGqlTypeConfig buildToken collection) value).2
     = Ok (ObjectType.isTypeOf (Collection.type collection) value)).
Proof.
  simpl isTypeOf. split.
  - intros r Htag Hne.
    assert (Hnn : neq_null value = true) by (by destruct value).
    rewrite (collection_isTypeOf_by_tag _ _ Hnn), Htag. simpl.
    by apply Nat.eqb_neq in Hne as ->.
  - intros Htag. destruct (neq_null value) eqn:Hnn.
    + by rewrite (collection_isTypeOf_by_tag _ _ Hnn), Htag.
    + by rewrite (collection_isTypeOf_null _ _ Hnn).
Qed.

(** C9. On a value tagged with the target collection the identity check
    returns what the shape check returns: the matching tag alone does not
    make it true, and a value that fails the shape check is rejected. *)
Theorem isTypeOf_own_tag_needs_shape buildToken collection value :
  nodeValueCollection_of value = VCollection (Collection.address collection) →
  (isTypeOf (collectionGqlTypeConfig buildToken collection) value).2
  = Ok (ObjectType.isTypeOf (Collection.type collection) value)
  ∧ (ObjectType.isTypeOf (Collection.type collection) value = false →
     (isTypeOf (collectionGqlTypeConfig buildToken collection) value).2
     = Ok false).
Proof.
  intros Htag. simpl isTypeOf.
  assert (Hnn : neq_null value = true) by (by destruct value).
  assert (Hres : (collection_isTypeOf collection value).2
                 = Ok (ObjectType.isTypeOf (Collection.type collection) value)).
  { rewrite (collection_isTypeOf_by_tag _ _ Hnn), Htag. simpl.
    by rewrite Nat.eqb_refl. }
  split; [done |]. intros Hshape. by rewrite Hres, Hshape.
Qed.

(** C10. On [null] and on [undefined] the identity check does not read
    the tag (the log of property reads is empty, and no [TypeError] is
    thrown); its result is the shape check applied to that input. *)
Theorem isTypeOf_null_total buildToken collection value :
  value = VNull ∨ value = VUndefined →
  isTypeOf (collectionGqlTypeConfig buildToken collection) value
  = ([], Ok (ObjectType.isTypeOf (Collection.type collection) value)).
Proof.
  intros Hnull. simpl isTypeOf. apply collection_isTypeOf_null.
  by destruct Hnull as [-> | ->].
Qed.

End Shell.

(** ** Running [Build] computations *)

Section Run.
Context {E : Collaborators}.

Lemma run_bind {A B} (m : Build A) (f : A → Build B) s :
  run (bind m f) s =
  match run m s with
  | (Ok a, s1) => run (f a) s1
  | (Err e, s1) => (Err e, s1)
  end.
Proof.
  revert s. induction m as [a | e | buildToken collection k IH]; intros s.
  - simpl. by destruct (run (f a) s).
  - done.
  - simpl. destruct (getCollectionGqlType buildToken collection s) as [r s1].
    apply IH.
Qed.

Lemma run_bind_ok {A B} (m : Build A) (f : A → Build B) s a s1 :
  run m s = (Ok a, s1) → run (bind m f) s = run (f a) s1.
Proof. intros Hm. by rewrite run_bind, Hm. Qed.

Lemma run_bind_err {A B} (m : Build A) (f : A → Build B) s e s1 :
  run m s = (Err e, s1) → run (bind m f) s = (Err e, s1).
Proof. intros Hm. by rewrite run_bind, Hm. Qed.

(** A successful bind is a successful first part followed by a successful
    second part. *)
Lemma run_bind_inv {A B} (m : Build A) (f : A → Build B) s b s2 :
  run (bind m f) s = (Ok b, s2) →
  ∃ a s1, run m s = (Ok a, s1) ∧ run (f a) s1 = (Ok b, s2).
Proof.
  rewrite run_bind. destruct (run m s) as [[a | e] s1]; [eauto | discriminate].
Qed.

Lemma run_mapM_cons {A B} (f : A → Build B) a l s :
  run (mapM f (a :: l)) s =
  match run (f a) s with
  | (Ok b, s1) =>
      match run (mapM f l) s1 with
      | (Ok bs, s2) => (Ok (b :: bs), s2)
      | (Err e, s2) => (Err e, s2)
      end
  | (Err e, s1) => (Err e, s1)
  end.
Proof.
  simpl mapM. rewrite run_bind. destruct (run (f a) s) as [[b | e] s1]; [| done].
  by rewrite run_bind.
Qed.

Lemma run_mapM_cons_outcome {A B} (f : A → Build B) a l s :
  run (mapM f (a :: l)) s =
  match run (f a) s with
  | (Ok b, s1) => outcome_map (cons b) (run (mapM f l) s1)
  | (Err e, s1) => (Err e, s1)
  end.
Proof.
  rewrite run_mapM_cons. destruct (run (f a) s) as [[b | e] s1]; [| done].
  by destruct (run (mapM f l) s1) as [[bs | e] s2].
Qed.

Lemma outcome_map_compose {A B C} (g : B → C) (f : A → B) (o : Result A * State) :
  outcome_map g (outcome_map f o) = outcome_map (g ∘ f) o.
Proof. by destruct o as [[a | e] s]. Qed.

Lemma outcome_map_ext {A B} (f g : A → B) (o : Result A * State) :
  (∀ a, f a = g a) → outcome_map f o = outcome_map g o.
Proof. intros Hfg. destruct o as [[a | e] s]; [| done]. simpl. by rewrite Hfg. Qed.

(** An element whose callback returns [null] without any effect leaves
    no trace in the compacted result of [map]. *)
Lemma run_mapM_skip {A B} (f : A → Build (option B)) l1 a l2 s :
  f a = Return None →
  outcome_map (omap id) (run (mapM f (l1 ++ a :: l2)) s)
  = outcome_map (omap id) (run (mapM f (l1 ++ l2)) s).
Proof.
  intros Hskip. revert s. induction l1 as [| x l1 IH]; intros s.
  - simpl app. rewrite run_mapM_cons_outcome, Hskip. cbn [run].
    rewrite outcome_map_compose. by apply outcome_map_ext.
  - simpl app. rewrite !run_mapM_cons_outcome.
    destruct (run (f x) s) as [[b | e] s1]; [| done].
    rewrite !outcome_map_compose.
    specialize (IH s1).
    destruct (run (mapM f (l1 ++ a :: l2)) s1) as [[bs | e] s2],
             (run (mapM f (l1 ++ l2)) s1) as [[bs' | e'] s2'];
      simpl in *; try congruence.
    injection IH as Heq ->. unfold compose. do 2 f_equal.
    destruct b; [f_equal |]; exact Heq.
Qed.

End Run.

(** ** The field-entry assembler *)

Section Assembler.
Context {E : Collaborators}.

Lemma run_fmap {A B} (m : Build A) (f : A → B) s :
  run (bind m (fun a => Return (f a))) s = outcome_map f (run m s).
Proof. rewrite run_bind. by destruct (run m s) as [[a | e] s1]. Qed.

(** The thunk is its id stream put in front of the other four. *)
Lemma collectionFields_split buildToken collection s :
  run (collectionFields buildToken collection) s =
  outcome_map (app (omap id (idFieldEntries buildToken collection)))
              (run (nonIdFields buildToken collection) s).
Proof.
  unfold collectionFields, nonIdFields. rewrite !run_bind.
  destruct (run (basicFieldEntries buildToken collection) s)
    as [[basics | e] s1]; [| done].
  rewrite !run_bind.
  destruct (run (hookFieldEntries buildToken collection) s1)
    as [[hooks | e] s2]; [| done].
  rewrite !run_bind.
  destruct (run (createCollectionRelationTailGqlFieldEntries buildToken collection) s2)
    as [[tails | e] s3]; [| done].
  rewrite !run_bind.
  destruct (run (headRelationFieldEntries buildToken collection) s3)
    as [[heads | e] s4]; done.
Qed.

(** The four other streams, one after the other. *)
Lemma nonIdFields_ok buildToken collection s basics s1 hooks s2 tails s3 heads s4 :
  run (basicFieldEntries buildToken collection) s = (Ok basics, s1) →
  run (hookFieldEntries buildToken collection) s1 = (Ok hooks, s2) →
  run (createCollectionRelationTailGqlFieldEntries buildToken collection) s2
    = (Ok tails, s3) →
  run (headRelationFieldEntries buildToken collection) s3 = (Ok heads, s4) →
  run (nonIdFields buildToken collection) s =
  (Ok (omap id basics ++ omap id hooks ++ omap id tails ++ omap id heads), s4).
Proof.
  intros Hb Hh Ht Hd. unfold nonIdFields.
  rewrite (run_bind_ok _ _ _ _ _ Hb), (run_bind_ok _ _ _ _ _ Hh),
          (run_bind_ok _ _ _ _ _ Ht), (run_bind_ok _ _ _ _ _ Hd).
  simpl. unfold buildObject. simpl. by rewrite app_nil_r.
Qed.

(** A thunk that returns has run its four effectful streams to the end. *)
Lemma nonIdFields_inv buildToken collection s fs s4 :
  run (nonIdFields buildToken collection) s = (Ok fs, s4) →
  ∃ basics s1 hooks s2 tails s3 heads,
    run (basicFieldEntries buildToken collection) s = (Ok basics, s1)
    ∧ run (hookFieldEntries buildToken collection) s1 = (Ok hooks, s2)
    ∧ run (createCollectionRelationTailGqlFieldEntries buildToken collection) s2
      = (Ok tails, s3)
    ∧ run (headRelationFieldEntries buildToken collection) s3 = (Ok heads, s4)
    ∧ fs = omap id basics ++ omap id hooks ++ omap id tails ++ omap id heads.
Proof.
  unfold nonIdFields. intros Hrun.
  apply run_bind_inv in Hrun as (basics & s1 & Hb & Hrun).
  apply run_bind_inv in Hrun as (hooks & s2 & Hh & Hrun).
  apply run_bind_inv in Hrun as (tails & s3 & Ht & Hrun).
  apply run_bind_inv in Hrun as (heads & s3' & Hd & Hrun).
  simpl in Hrun. injection Hrun as <- <-.
  exists basics, s1, hooks, s2, tails, s3, heads.
  repeat split; try done.
  unfold buildObject. simpl. by rewrite app_nil_r.
Qed.

(** The names of the basic entries are the formatted names of the entity
    fields, in the order of the entity's field map. *)
Lemma basicFieldEntries_names buildToken (fs : list (string * ObjectType.Field)) s basics s1 :
  run (mapM (basicFieldEntry buildToken) fs) s = (Ok basics, s1) →
  (omap id basics).*1 = formatName_field <$> fs.*1.
Proof.
  revert s basics. induction fs as [| [fieldName field] fs IH]; intros s basics.
  - simpl. by intros [= <- _].
  - rewrite run_mapM_cons. unfold basicFieldEntry at 1. rewrite run_bind.
    destruct (run (getGqlType _ _ _) s) as [[type | e] s0]; [| done].
    cbn [run].
    destruct (run (mapM _ fs) s0) as [[rest | e] s2] eqn:Hrest; [| done].
    intros [= <- <-]. simpl. f_equal. by apply (IH _ _ Hrest).
Qed.

(** The names of the head entries are the names of the relations that
    have what a connection field needs, in the order they are given. *)
Lemma headRelationFieldEntries_names buildToken (relations : list Relation.t) s heads s1 :
  run (mapM (headRelationFieldEntry buildToken) relations) s = (Ok heads, s1) →
  (omap id heads).*1 = headFieldName <$> List.filter hasConnectionField relations.
Proof.
  revert s heads. induction relations as [| relation relations IH]; intros s heads.
  - simpl. by intros [= <- _].
  - rewrite run_mapM_cons. cbn [List.filter].
    unfold headRelationFieldEntry at 1. unfold hasConnectionField at 1.
    destruct (Collection.paginator (Relation.tailCollection relation))
      as [tailPaginator |];
      [destruct (Relation.getTailConditionFromHeadValue relation) as [getTail |] |].
    + rewrite run_bind.
      destruct (run (createConnectionGqlField _ _ _) s) as [[field | e] s0]; [| done].
      cbn [run].
      destruct (run (mapM _ relations) s0) as [[rest | e] s2] eqn:Hrest; [| done].
      intros [= <- <-]. simpl. f_equal. by apply (IH _ _ Hrest).
    + cbn [run].
      destruct (run (mapM _ relations) s) as [[rest | e] s2] eqn:Hrest; [| done].
      intros [= <- <-]. simpl. by apply (IH _ _ Hrest).
    + cbn [run].
      destruct (run (mapM _ relations) s) as [[rest | e] s2] eqn:Hrest; [| done].
      intros [= <- <-]. simpl. by apply (IH _ _ Hrest).
Qed.

End Assembler.

(** ** The field list of the built type *)

Section Fields.
Context {E : Collaborators}.

(** C2. Without a primary key the built type declares no interface and
    its thunk yields the basic, hook, tail and head entries only: there
    is no identifier field. With a primary key it declares the node
    interface and nothing else, and its thunk yields those same entries
    behind exactly one identifier entry, named by [nodeIdFieldName], of
    type non-null ID, which resolves a value by [idSerde.serialize] of the
    collection and the value. *)
Theorem identifier_iff_primaryKey buildToken collection :
  match Collection.primaryKey collection with
  | None =>
      interfaces (collectionGqlTypeConfig buildToken collection) = []
      ∧ omap id (idFieldEntries buildToken collection) = []
      ∧ ∀ s, run (fields (collectionGqlTypeConfig buildToken collection)) s
             = run (nonIdFields buildToken collection) s
  | Some _ =>
      interfaces (collectionGqlTypeConfig buildToken collection)
      = [getNodeInterfaceType buildToken]
      ∧ ∃ idField,
          omap id (idFieldEntries buildToken collection)
          = [(BuildToken.nodeIdFieldName (BuildToken.options buildToken), idField)]
          ∧ field_type idField = GraphQLNonNull GraphQLID
          ∧ (∀ value args,
               field_resolve idField value args
               = match idSerde_serialize collection value with
                 | Ok id => Ok (VString id)
                 | Err e => Err e
                 end)
          ∧ ∀ s, run (fields (collectionGqlTypeConfig buildToken collection)) s
                 = outcome_map
                     (cons (BuildToken.nodeIdFieldName
                              (BuildToken.options buildToken), idField))
                     (run (nonIdFields buildToken collection) s)
  end.
Proof.
  pose proof (collectionFields_split buildToken collection) as Hsplit.
  unfold collectionGqlTypeConfig, idFieldEntries in *. simpl fields. simpl interfaces.
  destruct (Collection.primaryKey collection) as [key |].
  - split; [done |]. eexists. split; [reflexivity |].
    split; [reflexivity |]. split; [reflexivity |].
    intros s. by rewrite Hsplit.
  - split; [done |]. split; [done |]. intros s. rewrite Hsplit.
    by destruct (run (nonIdFields buildToken collection) s) as [[fs | e] s1].
Qed.

(** C3. When the four effectful streams return, forcing the thunk returns
    the concatenation: identifier entry (if any), basic entries, hook
    entries, tail-relation entries, head-relation entries. The basic
    entries are named after the entity fields in the order of the
    entity's field map, the head entries after the head relations that
    can have a connection field, in the order of the relation registry. *)
Theorem fields_order buildToken collection
    s basics s1 hooks s2 tails s3 heads s4 :
  run (basicFieldEntries buildToken collection) s = (Ok basics, s1) →
  run (hookFieldEntries buildToken collection) s1 = (Ok hooks, s2) →
  run (createCollectionRelationTailGqlFieldEntries buildToken collection) s2
    = (Ok tails, s3) →
  run (headRelationFieldEntries buildToken collection) s3 = (Ok heads, s4) →
  run (fields (collectionGqlTypeConfig buildToken collection)) s
  = (Ok (omap id (idFieldEntries buildToken collection)
         ++ omap id basics ++ omap id hooks ++ omap id tails ++ omap id heads),
     s4)
  ∧ (omap id basics).*1
    = formatName_field <$> (ObjectType.fields (Collection.type collection)).*1
  ∧ (omap id heads).*1
    = headFieldName <$>
        List.filter hasConnectionField
          (List.filter (isHeadOf collection)
             (BuildToken.getRelations (BuildToken.inventory buildToken))).
Proof.
  intros Hb Hh Ht Hd. split; [| split].
  - simpl fields. rewrite collectionFields_split.
    by rewrite (nonIdFields_ok _ _ _ _ _ _ _ _ _ _ _ Hb Hh Ht Hd).
  - by apply (basicFieldEntries_names _ _ _ _ _ Hb).
  - by apply (headRelationFieldEntries_names _ _ _ _ _ Hd).
Qed.

(** The basic entries, one per entity field. *)
Lemma basicFieldEntries_declared buildToken (fs : list (string * ObjectType.Field)) s :
  (∀ field s0, field ∈ fs →
     ∃ type s1, run (getGqlType buildToken (ObjectType.type field.2) false) s0
                = (Ok type, s1)) →
  ∃ basics s1,
    run (mapM (basicFieldEntry buildToken) fs) s = (Ok basics, s1)
    ∧ Forall2 (declaredEntryOf buildToken) fs basics.
Proof.
  revert s. induction fs as [| [fieldName field] fs IH]; intros s Hok.
  - exists [], s. split; [done | constructor].
  - destruct (Hok (fieldName, field) s) as (type & s0 & Htype); [left |].
    destruct (IH s0) as (rest & s1 & Hrest & Hall).
    { intros f s' Hin. apply Hok. by right. }
    eexists _, s1. split.
    + rewrite run_mapM_cons. unfold basicFieldEntry at 1.
      rewrite (run_bind_ok _ _ _ _ _ Htype). cbn [run]. rewrite Hrest. reflexivity.
    + constructor; [| done]. eexists. split; [reflexivity |].
      split; [done |]. split; [by exists s, s0 | done].
Qed.

(** C8. When the type-resolution collaborator resolves the type of each
    entity field, the basic stream returns one entry per entity field, in
    the order of the entity's field map: named by the field-naming
    policy, typed by [getGqlType] in non-input context, resolving an
    entity instance to the value it stores under the field's name. Any
    forced field list of the built type holds these entries, right
    after the identifier stream. *)
Theorem declared_fields buildToken collection s :
  (∀ field s0, field ∈ ObjectType.fields (Collection.type collection) →
     ∃ type s1, run (getGqlType buildToken (ObjectType.type field.2) false) s0
                = (Ok type, s1)) →
  ∃ basics s1,
    run (basicFieldEntries buildToken collection) s = (Ok basics, s1)
    ∧ Forall2 (declaredEntryOf buildToken)
              (ObjectType.fields (Collection.type collection)) basics
    ∧ length (omap id basics)
      = length (ObjectType.fields (Collection.type collection))
    ∧ ∀ fs s', run (fields (collectionGqlTypeConfig buildToken collection)) s
               = (Ok fs, s') →
        ∃ rest, fs = omap id (idFieldEntries buildToken collection)
                     ++ omap id basics ++ rest.
Proof.
  intros Hok.
  destruct (basicFieldEntries_declared buildToken _ s Hok)
    as (basics & s1 & Hrun & Hall).
  exists basics, s1. split; [done |]. split; [done |]. split.
  - pose proof (basicFieldEntries_names _ _ _ _ _ Hrun) as Hnames.
    apply (f_equal length) in Hnames. by rewrite !length_fmap in Hnames.
  - intros fs s'. simpl fields. rewrite collectionFields_split.
    destruct (run (nonIdFields buildToken collection) s) as [[fs' | e] s4] eqn:Hn;
      [| done].
    intros [= <- <-].
    apply nonIdFields_inv in Hn
      as (basics' & s1' & hooks & s2 & tails & s3 & heads & Hb & _ & _ & _ & ->).
    unfold basicFieldEntries in Hrun. unfold basicFieldEntries in Hb.
    rewrite Hrun in Hb. injection Hb as <- <-.
    by eexists.
Qed.

End Fields.

(** ** Head relations *)

Section HeadRelations.
Context {E : Collaborators}.

Lemma headRelationFieldEntry_omitted buildToken relation :
  Collection.paginator (Relation.tailCollection relation) = None
  ∨ Relation.getTailConditionFromHeadValue relation = None →
  headRelationFieldEntry buildToken relation = Return None.
Proof.
  unfold headRelationFieldEntry. intros [-> | ->]; [done |].
  by destruct (Collection.paginator (Relation.tailCollection relation)).
Qed.

(** C4. A relation whose head is the target collection, and whose tail
    collection has no paginator or which cannot derive a condition from a
    head value, yields [null] without calling a collaborator: nothing is
    thrown and the state is untouched. The head entries of a registry
    that holds the relation, once [buildObject] has dropped the [null]s,
    are those of the registry without it. *)
Theorem head_relation_omitted buildToken collection relation :
  isHeadOf collection relation = true →
  Collection.paginator (Relation.tailCollection relation) = None
  ∨ Relation.getTailConditionFromHeadValue relation = None →
  (∀ s, run (headRelationFieldEntry buildToken relation) s = (Ok None, s))
  ∧ ∀ before after s,
      outcome_map (omap id)
        (run (headRelationFieldEntriesOf buildToken collection
                (before ++ relation :: after)) s)
      = outcome_map (omap id)
          (run (headRelationFieldEntriesOf buildToken collection
                  (before ++ after)) s).
Proof.
  intros Hhead Hlacks.
  pose proof (headRelationFieldEntry_omitted buildToken _ Hlacks) as Hnull.
  split.
  - intros s. by rewrite Hnull.
  - intros before after s. unfold headRelationFieldEntriesOf.
    rewrite !List.filter_app. cbn [List.filter]. rewrite Hhead.
    by apply run_mapM_skip.
Qed.

(** C5. A head relation with a tail paginator and a way to derive a
    condition yields the field that [createConnectionGqlField] builds for
    the tail paginator, under the formatted name
    [<tail collection name>-by-<relation name>]; the config handed to
    [createConnectionGqlField] has exactly one input argument entry, named
    [condition], whose type is the condition type of the tail
    collection's entity type. *)
Theorem head_relation_field buildToken relation tailPaginator getTail :
  Collection.paginator (Relation.tailCollection relation) = Some tailPaginator →
  Relation.getTailConditionFromHeadValue relation = Some getTail →
  let tailCollection := Relation.tailCollection relation in
  let config := headConnectionConfig buildToken tailCollection getTail in
  (∀ s, run (headRelationFieldEntry buildToken relation) s
        = outcome_map
            (fun field =>
               Some (formatName_field
                       (Collection.name tailCollection +:+ "-by-" +:+
                        Relation.name relation),
                     field))
            (run (createConnectionGqlField buildToken tailPaginator config) s))
  ∧ ∃ arg, inputArgEntries config = [("condition", arg)]
           ∧ arg_type arg
             = gqlType (getConditionGqlType buildToken
                          (Collection.type tailCollection)).
Proof.
  intros Hpaginator Hcondition tailCollection config. split.
  - intros s. unfold headRelationFieldEntry.
    rewrite Hpaginator, Hcondition. by rewrite run_fmap.
  - by eexists.
Qed.

(** C6. The paginator input of a head relation field is the AND of the
    condition the relation derives from the head value and the condition
    read from the [condition] argument: a row passes it exactly when it
    passes both. Without a [condition] argument a row passes it exactly
    when it passes the condition derived from the head value. *)
Theorem paginator_input_and buildToken tailCollection getTail headValue args :
  let config := headConnectionConfig buildToken tailCollection getTail in
  let conditionGqlType :=
    getConditionGqlType buildToken (Collection.type tailCollection) in
  getPaginatorInput config headValue args
  = conditionHelpers.and
      (getTail headValue)
      (fromGqlInput conditionGqlType (args_get args "condition"))
  ∧ (∀ row, getPaginatorInput config headValue args row
            = getTail headValue row
              && fromGqlInput conditionGqlType (args_get args "condition") row)
  ∧ (args_get args "condition" = VUndefined →
     fromGqlInput conditionGqlType (args_get args "condition")
     = conditionHelpers.neutral
     ∧ ∀ row, getPaginatorInput config headValue args row
              = getTail headValue row).
Proof.
  intros config conditionGqlType. split; [done |]. split; [done |].
  intros Habsent. split.
  - by rewrite Habsent.
  - intros row. simpl. unfold conditionHelpers.and. rewrite Habsent. simpl.
    unfold conditionHelpers.neutral. apply andb_true_r.
Qed.

End HeadRelations.

(** * The properties on the small schema *)

Section OnDemo.
Import Demo.

(** The type of [person] is allocated once; asking again, before or after
    the type of [post] exists, gives the same address. *)
Example person_type_once :
  let '(r1, s1) := getCollectionGqlType buildToken person empty_state in
  let '(r2, s2) := getCollectionGqlType buildToken post s1 in
  let '(r3, s3) := getCollectionGqlType buildToken person s2 in
  (r1, r2, r3, length (heap s3)) = (0, 1, 0, 2).
Proof. reflexivity. Qed.

(** Forcing the thunk of [person] allocates the type of [post], which the
    connection field refers to; [audit] and [editor] leave no field. *)
Example person_fields :
  let s1 := (getCollectionGqlType buildToken person empty_state).2 in
  signature (force_fields 0 s1)
  = Ok [("__id", GraphQLNonNull GraphQLID, []);
        ("f_id", GraphQLNamed "Int", []);
        ("f_full_name", GraphQLNamed "String", []);
        ("person_extra", GraphQLNamed "String", []);
        ("f_posts-by-author", GraphQLList (GraphQLObject 1), ["condition"])].
Proof. reflexivity. Qed.

(** Forcing the thunk of [post] afterwards: its tail fields refer back to
    the type of [person], its [reply] fields to its own type, and no new
    type is allocated. *)
Example post_fields_refer_back :
  let s1 := (getCollectionGqlType buildToken person empty_state).2 in
  let s2 := (force_fields 0 s1).2 in
  signature (force_fields 1 s2)
  = Ok [("__id", GraphQLNonNull GraphQLID, []);
        ("f_id", GraphQLNamed "Int", []);
        ("f_headline", GraphQLNamed "String", []);
        ("f_author_id", GraphQLNamed "Int", []);
        ("post_extra", GraphQLNamed "String", []);
        ("people_by_author", GraphQLObject 0, []);
        ("people_by_editor", GraphQLObject 0, []);
        ("posts_by_reply", GraphQLObject 1, []);
        ("f_posts-by-reply", GraphQLList (GraphQLObject 1), ["condition"])]
  ∧ length (heap (force_fields 1 s2).2) = 2.
Proof. split; reflexivity. Qed.

(** No primary key: no interface and no identifier field. *)
Example log_fields :
  interfaces (collectionGqlTypeConfig buildToken log) = []
  ∧ signature (run (fields (collectionGqlTypeConfig buildToken log)) empty_state)
    = Ok [("f_line", GraphQLNamed "String", []);
          ("log_extra", GraphQLNamed "String", []);
          ("people_by_audit", GraphQLObject 0, [])].
Proof. split; reflexivity. Qed.

(** A failure of the type-resolution collaborator surfaces when the thunk
    is forced. *)
Example draft_fields_throw :
  signature (run (fields (collectionGqlTypeConfig buildToken draft)) empty_state)
  = Err (CollaboratorError "unrecognized type").
Proof. reflexivity. Qed.

(** The identifier field resolves through [idSerde.serialize], a basic
    field through [value.get]. *)
Example person_resolvers :
  match (run (fields (collectionGqlTypeConfig buildToken person)) empty_state).1 with
  | Ok ((_, idField) :: (_, _) :: (_, nameField) :: _) =>
      field_resolve idField alice [] = Ok (VString "people:id")
      ∧ field_resolve nameField alice [] = Ok (VString "Alice")
      ∧ field_resolve nameField VNull []
        = Err (TypeError "Cannot read properties of null or undefined")
  | _ => False
  end.
Proof. repeat split. Qed.

(** An unguarded read of the tag of [null] would throw. *)
Example read_null_throws :
  read_nodeValueCollection VNull
  = ([ReadNodeValueCollection VNull],
     Err (TypeError "Cannot read properties of null or undefined")).
Proof. reflexivity. Qed.

(** A tagged value is read twice: once for [typeof], once for [===]. *)
Example isTypeOf_reads :
  collection_isTypeOf post hello_node
  = ([ReadNodeValueCollection hello_node; ReadNodeValueCollection hello_node],
     Ok true)
  ∧ collection_isTypeOf person hello_node
    = ([ReadNodeValueCollection hello_node; ReadNodeValueCollection hello_node],
       Ok false)
  ∧ collection_isTypeOf person alice = ([ReadNodeValueCollection alice], Ok true)
  ∧ collection_isTypeOf person (VNumber 3) = ([ReadNodeValueCollection (VNumber 3)], Ok false).
Proof. repeat split. Qed.

(** The paginator input of [posts-by-author] for Alice, without and with
    a [condition] argument. *)
Example paginator_input_rows :
  let input := getPaginatorInput (headConnectionConfig buildToken post posts_of) alice in
  let published b := VMap VUndefined [("published", VBool b)] in
  let draft_of_alice :=
    VMap VUndefined [("id", VNumber 12); ("author_id", VNumber 1);
                     ("published", VBool false)] in
  input [] hello = true
  ∧ input [] draft_of_alice = true
  ∧ input [("condition", published true)] draft_of_alice = false
  ∧ input [("condition", published false)] draft_of_alice = true.
Proof. repeat split. Qed.

(** Forcing the thunk of the type of [post], which through the relation
    [reply] asks for the type of [post] again. *)
Lemma getCollectionGqlType_identical_witness :
  let s1 := (getCollectionGqlType buildToken post empty_state).2 in
  getCollectionGqlType buildToken post s1 = (0, s1)
  ∧ (force_fields 0 s1
     = run (answered (memo_key buildToken post) 0
              (fields (collectionGqlTypeConfig buildToken post))) s1
     ∧ getCollectionGqlType buildToken post (force_fields 0 s1).2
       = (0, (force_fields 0 s1).2))
  ∧ is_Some (heap s1 !! 0)
  ∧ heap s1 !! 0 = Some (collectionGqlTypeConfig buildToken post).
Proof.
  intros s1.
  pose proof (getCollectionGqlType_identical buildToken post empty_state)
    as (Htwice & _ & Hthunk & Hthere & Hfresh).
  split; [exact Htwice |]. split; [| split].
  - apply (Hthunk (collectionGqlTypeConfig buildToken post)). reflexivity.
  - apply Hthere. intros key r Hkey. vm_compute in Hkey. discriminate.
  - apply Hfresh. reflexivity.
Defined.

Lemma isTypeOf_foreign_or_untagged_witness :
  (isTypeOf (collectionGqlTypeConfig buildToken person) hello_node).2 = Ok false
  ∧ (isTypeOf (collectionGqlTypeConfig buildToken person) alice).2
    = Ok (ObjectType.isTypeOf personType alice).
Proof.
  split.
  - apply (proj1 (isTypeOf_foreign_or_untagged buildToken person hello_node) 2).
    + reflexivity.
    + simpl. lia.
  - apply (proj2 (isTypeOf_foreign_or_untagged buildToken person alice)).
    reflexivity.
Defined.

Lemma isTypeOf_own_tag_needs_shape_witness :
  (isTypeOf (collectionGqlTypeConfig buildToken post) stub_node).2 = Ok false.
Proof.
  apply (proj2 (isTypeOf_own_tag_needs_shape buildToken post stub_node eq_refl)).
  reflexivity.
Defined.

Lemma isTypeOf_null_total_witness :
  isTypeOf (collectionGqlTypeConfig buildToken person) VNull = ([], Ok false).
Proof.
  apply (isTypeOf_null_total buildToken person VNull). left. reflexivity.
Defined.

Lemma fields_order_witness :
  ∃ fs s4,
    run (fields (collectionGqlTypeConfig buildToken post)) empty_state = (Ok fs, s4)
    ∧ fs.*1 = ["__id"; "f_id"; "f_headline"; "f_author_id"; "post_extra";
               "people_by_author"; "people_by_editor"; "posts_by_reply";
               "f_posts-by-reply"].
Proof.
  eexists _, _. split.
  - refine (proj1 (fields_order buildToken post empty_state
                     _ _ _ _ _ _ _ _ _ _ _ _)); reflexivity.
  - reflexivity.
Defined.

Lemma declared_fields_witness :
  ∃ basics s1,
    run (basicFieldEntries buildToken person) empty_state = (Ok basics, s1)
    ∧ Forall2 (declaredEntryOf buildToken) (ObjectType.fields personType) basics.
Proof.
  destruct (declared_fields buildToken person empty_state)
    as (basics & s1 & Hrun & Hall & _).
  - intros field s0 Hin.
    apply elem_of_cons in Hin as [-> | Hin]; [by eexists _, _ |].
    apply elem_of_cons in Hin as [-> | Hin]; [by eexists _, _ |].
    by apply elem_of_nil in Hin.
  - by exists basics, s1.
Defined.

Lemma head_relation_omitted_witness :
  (∀ s, run (headRelationFieldEntry buildToken audit) s = (Ok None, s))
  ∧ outcome_map (omap id)
      (run (headRelationFieldEntriesOf buildToken person [audit; author]) empty_state)
    = outcome_map (omap id)
        (run (headRelationFieldEntriesOf buildToken person [author]) empty_state).
Proof.
  pose proof (head_relation_omitted buildToken person audit
                eq_refl (or_introl eq_refl)) as [Hnull Hsame].
  split; [exact Hnull |]. exact (Hsame [] [author] empty_state).
Defined.

Lemma head_relation_field_witness :
  (run (headRelationFieldEntry buildToken author) empty_state).1
  = Ok (Some ("f_posts-by-author",
              plainField (GraphQLList (GraphQLObject 0))
                [("condition",
                  {| arg_description := Some "A condition to be used in determining which values should be returned by the collection.";
                     arg_type := GraphQLNamed "postCondition" |})])).
Proof.
  rewrite (proj1 (head_relation_field buildToken author (PaginatorRef 2) posts_of
                    eq_refl eq_refl) empty_state).
  reflexivity.
Defined.

Lemma paginator_input_and_witness :
  getPaginatorInput (headConnectionConfig buildToken post posts_of) alice [] hello
  = posts_of alice hello.
Proof.
  apply (proj2 (proj2 (paginator_input_and buildToken post posts_of alice []))).
  reflexivity.
Defined.

End OnDemo.

(** * Further properties *)

(** ** What running a computation does to the state *)

Section MemoState.
Context {E : Collaborators}.

Lemma getCollectionGqlType_extends buildToken collection s :
  heap s `prefix_of` heap (getCollectionGqlType buildToken collection s).2
  ∧ cache s ⊆ cache (getCollectionGqlType buildToken collection s).2.
Proof.
  destruct (cache s !! memo_key buildToken collection) as [r |] eqn:Hc.
  - by rewrite (getCollectionGqlType_hit _ _ _ _ Hc).
  - rewrite (getCollectionGqlType_miss _ _ _ Hc). simpl. split.
    + by apply prefix_app_r.
    + by apply insert_subseteq.
Qed.

(** Object types that exist are never replaced or dropped, and memo
    entries never change: after any computation the heap has the old
    heap as a prefix and the memo table includes the old one. *)
Theorem run_extends {A} (m : Build A) s :
  heap s `prefix_of` heap (run m s).2 ∧ cache s ⊆ cache (run m s).2.
Proof.
  revert s. induction m as [a | e | buildToken collection k IH]; intros s.
  - done.
  - done.
  - rewrite run_call.
    destruct (getCollectionGqlType_extends buildToken collection s) as [Hh Hc].
    destruct (IH (getCollectionGqlType buildToken collection s).1
                 (getCollectionGqlType buildToken collection s).2) as [Hh' Hc'].
    split; by etrans.
Qed.

(** Running a computation again in the state it left behind gives the
    same result and changes nothing: each call it makes is a memo hit. *)
Lemma run_again {A} (m : Build A) s : run m (run m s).2 = run m s.
Proof.
  revert s. induction m as [a | e | buildToken collection k IH]; intros s.
  - done.
  - done.
  - rewrite (run_call buildToken collection k s).
    set (r := (getCollectionGqlType buildToken collection s).1).
    set (s1 := (getCollectionGqlType buildToken collection s).2).
    assert (Hhit : cache (run (k r) s1).2 !! memo_key buildToken collection = Some r).
    { apply run_keeps. apply getCollectionGqlType_stores. }
    rewrite run_call, (getCollectionGqlType_hit _ _ _ _ Hhit). simpl.
    apply IH.
Qed.

(** Forcing the [fields] thunk of a type a second time, in the state the
    first forcing left behind, returns the same outcome (the same field
    list or the same error) and leaves that state as it is: nothing is
    allocated and no memo entry is added. *)
Theorem force_fields_idempotent r s :
  force_fields r (force_fields r s).2 = force_fields r s.
Proof.
  unfold force_fields at 2 3.
  destruct (heap s !! r) as [type |] eqn:Htype.
  - assert (Hkept : heap (run (fields type) s).2 !! r = Some type).
    { destruct (run_extends (fields type) s) as [[rest ->] _].
      by apply lookup_app_l_Some. }
    unfold force_fields. rewrite Hkept. apply run_again.
  - simpl. unfold force_fields. by rewrite Htype.
Qed.

Lemma memo_consistent_empty : memo_consistent empty_state.
Proof.
  split; [| split].
  - intros key r Hkey. simpl in Hkey. by rewrite lookup_empty in Hkey.
  - intros key1 key2 r Hkey. simpl in Hkey. by rewrite lookup_empty in Hkey.
  - simpl. by rewrite map_size_empty.
Qed.

Lemma getCollectionGqlType_consistent buildToken collection s :
  memo_consistent s →
  memo_consistent (getCollectionGqlType buildToken collection s).2.
Proof.
  intros (Hbuilt & Hinj & Hsize).
  destruct (cache s !! memo_key buildToken collection) as [r' |] eqn:Hc.
  { by rewrite (getCollectionGqlType_hit _ _ _ _ Hc). }
  rewrite (getCollectionGqlType_miss _ _ _ Hc).
  assert (Hold : ∀ key r, cache s !! key = Some r → r < length (heap s)).
  { intros key r Hkey. destruct (Hbuilt key r Hkey) as (bt & c & _ & Hr).
    by apply lookup_lt_Some in Hr. }
  split; [| split]; simpl.
  - intros key r. rewrite lookup_insert. case_decide as Hk.
    + intros [= <-]. exists buildToken, collection. split; [done |].
      rewrite lookup_app_r; [| done]. by rewrite Nat.sub_diag.
    + intros Hkey. destruct (Hbuilt key r Hkey) as (bt & c & Hbc & Hr).
      exists bt, c. split; [done |]. by apply lookup_app_l_Some.
  - intros key1 key2 r. rewrite !lookup_insert.
    case_decide as Hk1; case_decide as Hk2.
    + congruence.
    + intros [= <-] Hkey2. apply Hold in Hkey2. lia.
    + intros Hkey1 [= <-]. apply Hold in Hkey1. lia.
    + apply Hinj.
  - rewrite map_size_insert_None; [| done]. rewrite length_app. simpl. lia.
Qed.

Lemma run_consistent {A} (m : Build A) s :
  memo_consistent s → memo_consistent (run m s).2.
Proof.
  revert s. induction m as [a | e | buildToken collection k IH]; intros s Hs.
  - done.
  - done.
  - rewrite run_call. by apply IH, getCollectionGqlType_consistent.
Qed.

(** [memo_consistent] is an invariant: it holds in the empty state and
    every computation keeps it. In each state a schema build can reach,
    every memo entry points at its own object type, the one
    [createCollectionGqlType] describes for the entry's key, and no object
    type exists that the memo table does not hold. *)
Theorem memo_consistent_invariant {A} (m : Build A) s :
  memo_consistent empty_state
  ∧ (memo_consistent s → memo_consistent (run m s).2).
Proof.
  split; [apply memo_consistent_empty | apply run_consistent].
Qed.

(** Two arguments pairs that differ in the build token or in the
    collection never get the same type instance, whatever runs between
    the two calls. *)
Theorem distinct_keys_distinct_types {A} buildToken collection
    buildToken' collection' (m : Build A) s :
  memo_consistent s →
  memo_key buildToken collection ≠ memo_key buildToken' collection' →
  let '(r, s1) := getCollectionGqlType buildToken collection s in
  let s2 := (run m s1).2 in
  (getCollectionGqlType buildToken' collection' s2).1 ≠ r.
Proof.
  intros Hs Hne.
  pose proof (getCollectionGqlType_stores buildToken collection s) as Hstored.
  pose proof (getCollectionGqlType_consistent buildToken collection s Hs) as Hs1.
  destruct (getCollectionGqlType buildToken collection s) as [r s1].
  simpl in Hstored, Hs1. intros s2 Heq.
  assert (Hr : cache s2 !! memo_key buildToken collection = Some r)
    by by apply run_keeps.
  pose proof (getCollectionGqlType_keeps buildToken' collection' s2 _ _ Hr) as Hr'.
  pose proof (getCollectionGqlType_stores buildToken' collection' s2) as Hr2.
  rewrite Heq in Hr2.
  assert (Hs3 : memo_consistent (getCollectionGqlType buildToken' collection' s2).2).
  { apply getCollectionGqlType_consistent.
    by apply run_consistent. }
  destruct Hs3 as (_ & Hinj & _).
  by specialize (Hinj _ _ _ Hr' Hr2).
Qed.

End MemoState.

(** ** More on the identity check *)

Section Predicate.
Context {E : Collaborators}.

Lemma strict_eq_object_true x r :
  strict_eq_object x r = true ↔ x = VCollection r.
Proof.
  destruct x; simpl; try (split; [discriminate | congruence]).
  rewrite Nat.eqb_eq. split; congruence.
Qed.

(** The result of the predicate, for every value. *)
Lemma collection_isTypeOf_result collection value :
  (collection_isTypeOf collection value).2 =
  Ok (match nodeValueCollection_of value with
      | VUndefined => true
      | tag => strict_eq_object tag (Collection.address collection)
      end
      && ObjectType.isTypeOf (Collection.type collection) value).
Proof.
  destruct (neq_null value) eqn:Hnn.
  - rewrite (collection_isTypeOf_by_tag _ _ Hnn).
    by destruct (nodeValueCollection_of value).
  - rewrite (collection_isTypeOf_null _ _ Hnn).
    by destruct value.
Qed.

Lemma collection_isTypeOf_true collection value :
  (collection_isTypeOf collection value).2 = Ok true →
  ObjectType.isTypeOf (Collection.type collection) value = true
  ∧ (nodeValueCollection_of value = VUndefined
     ∨ nodeValueCollection_of value
       = VCollection (Collection.address collection)).
Proof.
  rewrite collection_isTypeOf_result.
  intros [= Hacc]. apply andb_true_iff in Hacc as [Htag Hshape].
  split; [done |].
  destruct (nodeValueCollection_of value) eqn:Hv; try (by left);
    right; by apply strict_eq_object_true.
Qed.

(** The identity check of the built type never throws, on any value: it
    returns a boolean. It reads the tag of the value itself and of
    nothing else: not at all on [null] and [undefined], once on a value
    without a tag, twice on a tagged value. *)
Theorem isTypeOf_never_throws buildToken collection value :
  ∃ b,
    isTypeOf (collectionGqlTypeConfig buildToken collection) value
    = (reads_of value
         (if neq_null value
          then if typeof_neq_undefined (nodeValueCollection_of value)
               then 2 else 1
          else 0),
       Ok b).
Proof.
  simpl isTypeOf. unfold collection_isTypeOf.
  destruct value as [| | b | n | str | r | tag entries]; simpl;
    try (eexists; reflexivity).
  destruct tag as [| | b | n | str | r | tag entries']; simpl;
    try (eexists; reflexivity).
  destruct (Nat.eqb r (Collection.address collection)); eexists; reflexivity.
Qed.

(** The identity check accepts a value exactly when the entity's shape
    check accepts it and the value carries no tag or carries the target
    collection as its tag. A tag that is anything else ([null], a string,
    another collection) makes it reject the value. *)
Theorem isTypeOf_accepts_iff buildToken collection value :
  (isTypeOf (collectionGqlTypeConfig buildToken collection) value).2 = Ok true
  ↔ ObjectType.isTypeOf (Collection.type collection) value = true
    ∧ (nodeValueCollection_of value = VUndefined
       ∨ nodeValueCollection_of value
         = VCollection (Collection.address collection)).
Proof.
  simpl isTypeOf. split.
  - apply collection_isTypeOf_true.
  - rewrite collection_isTypeOf_result.
    intros [Hshape [Htag | Htag]]; rewrite Htag, Hshape; [done |].
    simpl. by rewrite Nat.eqb_refl.
Qed.

(** A tagged value is accepted by the type of one collection at most: if
    the types built for two collections both accept it, the two
    collections are the same object. *)
Theorem isTypeOf_tagged_one_collection buildToken buildToken'
    collection collection' value :
  nodeValueCollection_of value ≠ VUndefined →
  (isTypeOf (collectionGqlTypeConfig buildToken collection) value).2 = Ok true →
  (isTypeOf (collectionGqlTypeConfig buildToken' collection') value).2 = Ok true →
  Collection.address collection = Collection.address collection'.
Proof.
  simpl isTypeOf. intros Htagged Hacc Hacc'.
  apply collection_isTypeOf_true in Hacc as [_ [Htag | Htag]]; [done |].
  apply collection_isTypeOf_true in Hacc' as [_ [Htag' | Htag']]; [done |].
  congruence.
Qed.

End Predicate.

(** ** More on the field list *)

Section Thunk.
Context {E : Collaborators}.

(** Two outcomes recorded for the same run are the same outcome. *)
Ltac same_run :=
  try match goal with
      | H : run ?m ?s = _, H' : run ?m ?s = _ |- _ =>
          rewrite H in H'; simplify_eq
      end.


(** Whenever forcing the thunk of the built type returns a field list,
    the basic, hook, tail and head streams have each returned, one after
    the other in that order, and the list is the identifier entry (if
    any) followed by their entries. *)
Theorem fields_inversion buildToken collection s fs s4 :
  run (fields (collectionGqlTypeConfig buildToken collection)) s = (Ok fs, s4) →
  ∃ basics s1 hooks s2 tails s3 heads,
    run (basicFieldEntries buildToken collection) s = (Ok basics, s1)
    ∧ run (hookFieldEntries buildToken collection) s1 = (Ok hooks, s2)
    ∧ run (createCollectionRelationTailGqlFieldEntries buildToken collection) s2
      = (Ok tails, s3)
    ∧ run (headRelationFieldEntries buildToken collection) s3 = (Ok heads, s4)
    ∧ fs = omap id (idFieldEntries buildToken collection)
           ++ omap id basics ++ omap id hooks ++ omap id tails ++ omap id heads.
Proof.
  simpl fields. rewrite collectionFields_split.
  destruct (run (nonIdFields buildToken collection) s) as [[fs' | e] s'] eqn:Hn;
    [| done].
  intros [= <- <-].
  apply nonIdFields_inv in Hn
    as (basics & s1 & hooks & s2 & tails & s3 & heads & Hb & Hh & Ht & Hd & ->).
  by exists basics, s1, hooks, s2, tails, s3, heads.
Qed.

(** The thunk stops at the first stream that throws: its outcome is that
    stream's error in the state that stream left, and the streams after
    it are not run. *)
Theorem fields_fail_fast buildToken collection s e s' :
  (run (basicFieldEntries buildToken collection) s = (Err e, s')
   ∨ (∃ basics s1,
        run (basicFieldEntries buildToken collection) s = (Ok basics, s1)
        ∧ (run (hookFieldEntries buildToken collection) s1 = (Err e, s')
           ∨ ∃ hooks s2,
               run (hookFieldEntries buildToken collection) s1 = (Ok hooks, s2)
               ∧ (run (createCollectionRelationTailGqlFieldEntries
                         buildToken collection) s2 = (Err e, s')
                  ∨ ∃ tails s3,
                      run (createCollectionRelationTailGqlFieldEntries
                             buildToken collection) s2 = (Ok tails, s3)
                      ∧ run (headRelationFieldEntries buildToken collection) s3
                        = (Err e, s')))))
  ↔ run (fields (collectionGqlTypeConfig buildToken collection)) s = (Err e, s').
Proof.
  simpl fields. unfold collectionFields. rewrite run_bind.
  destruct (run (basicFieldEntries buildToken collection) s)
    as [[basics | e0] s1] eqn:Hb.
  2:{ split.
      - intros [H1 | (b & s1' & H1 & _)]; by simplify_eq.
      - intros H1. simplify_eq. by left. }
  rewrite run_bind.
  destruct (run (hookFieldEntries buildToken collection) s1)
    as [[hooks | e0] s2] eqn:Hh.
  2:{ split.
      - intros [H1 | (b & s1' & H1 & [H2 | (h & s2' & H2 & _)])];
          simplify_eq; by same_run.
      - intros H1. simplify_eq. right. exists basics, s1. split; [done |].
        by left. }
  rewrite run_bind.
  destruct (run (createCollectionRelationTailGqlFieldEntries buildToken collection) s2)
    as [[tails | e0] s3] eqn:Ht.
  2:{ split.
      - intros [H1 | (b & s1' & H1
                      & [H2 | (h & s2' & H2 & [H3 | (t & s3' & H3 & _)])])];
          simplify_eq; same_run; by same_run.
      - intros H1. simplify_eq. right. exists basics, s1. split; [done |].
        right. exists hooks, s2. split; [done |]. by left. }
  rewrite run_bind.
  destruct (run (headRelationFieldEntries buildToken collection) s3)
    as [[heads | e0] s4] eqn:Hd.
  - cbn [run]. split; [| discriminate].
    intros [H1 | (b & s1' & H1
                  & [H2 | (h & s2' & H2 & [H3 | (t & s3' & H3 & H4)])])];
      simplify_eq; same_run; same_run; by same_run.
  - split.
    + intros [H1 | (b & s1' & H1
                    & [H2 | (h & s2' & H2 & [H3 | (t & s3' & H3 & H4)])])];
        simplify_eq; same_run; same_run; by same_run.
    + intros H1. simplify_eq. right. exists basics, s1. split; [done |].
      right. exists hooks, s2. split; [done |].
      right. by exists tails, s3.
Qed.




(** Relations of the registry whose head is another collection play no
    part in the head stream of a collection: the stream is the same
    computation with or without them, so no collaborator is called for
    them. When no relation of the registry has the collection as its
    head (an empty registry included), the head stream returns the empty
    list and leaves the state alone. *)
Theorem foreign_head_relations_ignored buildToken collection :
  (∀ relation before after,
     isHeadOf collection relation = false →
     headRelationFieldEntriesOf buildToken collection
       (before ++ relation :: after)
     = headRelationFieldEntriesOf buildToken collection (before ++ after))
  ∧ ((∀ relation,
        relation ∈ BuildToken.getRelations (BuildToken.inventory buildToken) →
        isHeadOf collection relation = false) →
     ∀ s, run (headRelationFieldEntries buildToken collection) s = (Ok [], s)).
Proof.
  split.
  - intros relation before after Hforeign. unfold headRelationFieldEntriesOf.
    rewrite !List.filter_app. cbn [List.filter]. by rewrite Hforeign.
  - intros Hnone s. unfold headRelationFieldEntries, headRelationFieldEntriesOf.
    replace (List.filter (isHeadOf collection)
               (BuildToken.getRelations (BuildToken.inventory buildToken)))
      with (@nil Relation.t); [done |].
    symmetry.
    induction (BuildToken.getRelations (BuildToken.inventory buildToken))
      as [| relation relations IH]; [done |].
    cbn [List.filter]. rewrite (Hnone relation); [| by left].
    apply IH. intros relation' Hin. apply Hnone. by right.
Qed.

(** The [condition] argument can only narrow what a head relation field
    selects: a row that passes the paginator input passes the condition
    the relation derives from the head value, whatever the caller
    supplies. Of the arguments only [condition] matters. (With
    [conditionHelpers.and] as the logical AND.) *)
Theorem paginator_input_narrows buildToken tailCollection getTail
    headValue args :
  let config := headConnectionConfig buildToken tailCollection getTail in
  (∀ row, getPaginatorInput config headValue args row = true →
          getTail headValue row = true)
  ∧ (∀ args', args_get args' "condition" = args_get args "condition" →
              getPaginatorInput config headValue args'
              = getPaginatorInput config headValue args).
Proof.
  intros config. split.
  - intros row. simpl. unfold conditionHelpers.and.
    intros Hrow. by apply andb_true_iff in Hrow as [Hhead _].
  - intros args' Hsame. simpl. by rewrite Hsame.
Qed.

End Thunk.

(** * The further properties on the small schema *)

Section OnDemoMore.
Import Demo.

Lemma memo_consistent_invariant_witness :
  memo_consistent
    (run (fields (collectionGqlTypeConfig buildToken post)) empty_state).2.
Proof.
  apply (proj2 (memo_consistent_invariant
                  (fields (collectionGqlTypeConfig buildToken post))
                  empty_state)).
  split; [| split].
  - intros key r Hkey. vm_compute in Hkey. discriminate.
  - intros key1 key2 r Hkey. vm_compute in Hkey. discriminate.
  - reflexivity.
Defined.

Lemma distinct_keys_distinct_types_witness :
  let s1 := (getCollectionGqlType buildToken person empty_state).2 in
  let s2 := (run (fields (collectionGqlTypeConfig buildToken person)) s1).2 in
  (getCollectionGqlType buildToken post s2).1 ≠ 0.
Proof.
  apply (distinct_keys_distinct_types buildToken person buildToken post
           (fields (collectionGqlTypeConfig buildToken person)) empty_state).
  - split; [| split].
    + intros key r Hkey. vm_compute in Hkey. discriminate.
    + intros key1 key2 r Hkey. vm_compute in Hkey. discriminate.
    + reflexivity.
  - vm_compute. discriminate.
Defined.

Lemma isTypeOf_accepts_iff_witness :
  (isTypeOf (collectionGqlTypeConfig buildToken post) hello_node).2 = Ok true.
Proof.
  apply (proj2 (isTypeOf_accepts_iff buildToken post hello_node)).
  split; [reflexivity | right; reflexivity].
Defined.

Lemma isTypeOf_tagged_one_collection_witness :
  Collection.address post = Collection.address post.
Proof.
  apply (isTypeOf_tagged_one_collection buildToken buildToken post post hello_node).
  - simpl. discriminate.
  - reflexivity.
  - reflexivity.
Defined.

Lemma fields_inversion_witness :
  ∃ fs s4 basics s1 hooks s2 tails s3 heads,
    run (fields (collectionGqlTypeConfig buildToken post)) empty_state = (Ok fs, s4)
    ∧ run (basicFieldEntries buildToken post) empty_state = (Ok basics, s1)
    ∧ run (hookFieldEntries buildToken post) s1 = (Ok hooks, s2)
    ∧ run (createCollectionRelationTailGqlFieldEntries buildToken post) s2
      = (Ok tails, s3)
    ∧ run (headRelationFieldEntries buildToken post) s3 = (Ok heads, s4)
    ∧ fs = omap id (idFieldEntries buildToken post)
           ++ omap id basics ++ omap id hooks ++ omap id tails ++ omap id heads.
Proof.
  pose proof (fields_inversion buildToken post empty_state) as Hinv.
  destruct (run (fields (collectionGqlTypeConfig buildToken post)) empty_state)
    as [[fs | e] s4] eqn:Hrun.
  - destruct (Hinv fs s4 eq_refl)
      as (basics & s1 & hooks & s2 & tails & s3 & heads
          & Hb & Hh & Ht & Hd & Hfs).
    exists fs, s4, basics, s1, hooks, s2, tails, s3, heads.
    repeat split; assumption || reflexivity.
  - vm_compute in Hrun. discriminate Hrun.
Defined.

Lemma fields_fail_fast_witness :
  run (fields (collectionGqlTypeConfig buildToken draft)) empty_state
  = (Err (CollaboratorError "unrecognized type"), empty_state).
Proof.
  apply (proj1 (fields_fail_fast buildToken draft empty_state _ _)).
  left. reflexivity.
Defined.



Lemma foreign_head_relations_ignored_witness :
  headRelationFieldEntriesOf buildToken person [author; reply]
  = headRelationFieldEntriesOf buildToken person [author]
  ∧ ∀ s, run (headRelationFieldEntries buildToken log) s = (Ok [], s).
Proof.
  split.
  - apply (proj1 (foreign_head_relations_ignored buildToken person)
             reply [author] []).
    reflexivity.
  - apply (proj2 (foreign_head_relations_ignored buildToken log)).
    intros relation Hin.
    repeat (apply elem_of_cons in Hin as [-> | Hin]; [reflexivity |]).
    by apply elem_of_nil in Hin.
Defined.

Lemma paginator_input_narrows_witness :
  posts_of alice
    (VMap VUndefined [("id", VNumber 12); ("author_id", VNumber 1);
                      ("published", VBool true)])
  = true.
Proof.
  apply (proj1 (paginator_input_narrows buildToken post posts_of alice
                  [("condition", VMap VUndefined [("published", VBool true)])])).
  reflexivity.
Defined.

End OnDemoMore.
